(** * torchmeta/datasets/helpers_tabular.py

    A shallow embedding of the tabular helper functions
    ([helper_with_default_tabular], [covertype], [letter]) and the
    properties of their default-resolution protocol.

    The helpers are glue code: they resolve keyword options, emit
    warnings, and call three collaborators (the class-selection dataset
    constructor, [ClassSplitter], and the [seed] method of the object the
    splitter returns).  The collaborators are not part of this module, so
    a helper denotes a program over collaborator calls; it is run against
    an arbitrary oracle that answers every call with a value or with a
    raised exception. *)

From stdpp Require Import gmap strings list fin_maps pretty.

Local Open Scope Z_scope.
Local Open Scope string_scope.

(** ** Python values *)

(** The values that flow through the helpers.  [VNumpyToTorch] and
    [VCategorical] are the two transform objects the helper builds
    itself; [VRef] stands for any other object (a dataset, a user
    supplied transform, a list of augmentations, ...). *)
Inductive value : Type :=
| VNone
| VBool (b : bool)
| VInt (n : Z)
| VStr (s : string)
| VNumpyToTorch
| VCategorical (num_classes : value)
| VRef (addr : positive).

(** Modelled from the spec: the constructor [NumpyToTorch()] of
    torchmeta.transforms.tabular_transforms is not in this module; the
    spec describes its result as a fixed, stateless input-conversion
    transform, so constructing it cannot fail and yields one value. *)
Definition NumpyToTorch : value := VNumpyToTorch.

(** Modelled from the spec: the constructor [Categorical(num_classes)] of
    torchmeta.transforms is not in this module; the spec describes its
    result as a categorical label encoder parameterized by the class
    count, so the object is determined by the argument it stores. *)
Definition Categorical (num_classes : value) : value := VCategorical num_classes.

(** An optional integer argument ([test_shots: int = None],
    [seed: int = None]) as the Python value that is passed on. *)
Definition of_optional (o : option Z) : value :=
  match o with
  | None => VNone
  | Some n => VInt n
  end.

(** The meta-dataset classes ([klass]). *)
Inductive meta_class : Type :=
| Covertype
| Letter
| OtherClass (name : string).

(** Keyword dictionaries ([**kwargs], [defaults]). *)
Abbreviation kwargs_t := (gmap string value).

(** [d.get(key, fallback)] *)
Definition dict_get (d : kwargs_t) (key : string) (fallback : value) : value :=
  match d !! key with
  | Some v => v
  | None => fallback
  end.

(** ** Exceptions, warnings, collaborator calls *)

Inductive exn : Type :=
| TypeError_multiple_values (keyword : string)
    (* "... got multiple values for keyword argument '<keyword>'" *)
| Raised (exn_class : string) (message : string).

(** [warnings.warn(message, stacklevel=...)]; the category is the default
    [UserWarning], the default [stacklevel] is 1. *)
Record warning : Type := Warning { message : string; stacklevel : nat }.

Inductive call : Type :=
| ClassDataset (klass : meta_class) (folder : string) (kwargs : kwargs_t)
    (* klass(folder, **kwargs) *)
| ClassSplitter (dataset : value) (shuffle : bool)
                (num_train_per_class num_test_per_class : value)
| SeedMethod (dataset : value) (seed : value).
    (* dataset.seed(seed) *)

Abbreviation outcome := (exn + value)%type.

Inductive event : Type :=
| EWarn (w : warning)
| ECall (c : call) (o : outcome).

(** ** Programs over collaborator calls *)

(** There is no constructor for catching an exception: the module has no
    [try] statement. *)
Inductive prog (A : Type) : Type :=
| Ret (a : A)
| Raise (e : exn)
| Warn (w : warning) (k : prog A)
| Call (c : call) (k : value → prog A).

Arguments Ret {A} a.
Arguments Raise {A} e.
Arguments Warn {A} w k.
Arguments Call {A} c k.

Fixpoint bind {A B : Type} (p : prog A) (f : A → prog B) : prog B :=
  match p with
  | Ret a => f a
  | Raise e => Raise e
  | Warn w k => Warn w (bind k f)
  | Call c k => Call c (λ v, bind (k v) f)
  end.

Definition call_ext (c : call) : prog value := Call c Ret.
Definition warn (w : warning) : prog unit := Warn w (Ret tt).

Declare Scope prog_scope.
Delimit Scope prog_scope with prog.
Notation "'let*' x ':=' p 'in' q" := (bind p (λ x, q))
  (at level 10, x name, p at level 100, q at level 200,
   format "'[v' 'let*'  x  ':='  p  'in' '/' q ']'") : prog_scope.
Notation "p '>>' q" := (bind p (λ _, q))
  (at level 100, q at level 200, right associativity,
   format "'[v' p  '>>' '/' q ']'") : prog_scope.
Local Open Scope prog_scope.

(** [when c p]: the statement [if c: p] with no [else]. *)
Definition when (c : bool) (p : prog unit) : prog unit :=
  if c then p else Ret tt.

(** ** Running a program *)

(** The collaborators: the answer to a call may depend on every call
    answered before it (constructors read files, objects have state).
    Warnings go to the warning channel and are not seen by collaborators;
    under Python's default warning filters [warnings.warn] returns
    normally. *)
Definition oracle : Type := list (call * outcome) → call → outcome.

Fixpoint exec {A : Type} (env : oracle) (hist : list (call * outcome))
    (p : prog A) : list event * (exn + A) :=
  match p with
  | Ret a => ([], inr a)
  | Raise e => ([], inl e)
  | Warn w k =>
      let '(tr, r) := exec env hist k in (EWarn w :: tr, r)
  | Call c k =>
      match env hist c with
      | inl e => ([ECall c (inl e)], inl e)
      | inr v =>
          let '(tr, r) := exec env (hist ++ [(c, inr v)])%list (k v) in
          (ECall c (inr v) :: tr, r)
      end
  end.

Definition run {A : Type} (env : oracle) (p : prog A) : list event * (exn + A) :=
  exec env [] p.

(** ** Observations on a trace *)

Definition warnings_of (tr : list event) : list warning :=
  omap (λ ev, match ev with EWarn w => Some w | _ => None end) tr.

Definition calls_of (tr : list event) : list (call * outcome) :=
  omap (λ ev, match ev with ECall c o => Some (c, o) | _ => None end) tr.

(** Keyword dictionaries the class-selection dataset constructor was
    entered with. *)
Definition class_calls (tr : list event) : list (meta_class * string * kwargs_t) :=
  omap (λ ev, match ev with
              | ECall (ClassDataset k f kw) _ => Some (k, f, kw)
              | _ => None
              end) tr.

(** Class-selection datasets that were built. *)
Definition class_results (tr : list event) : list value :=
  omap (λ ev, match ev with
              | ECall (ClassDataset _ _ _) (inr v) => Some v
              | _ => None
              end) tr.

(** Invocations of the split operator. *)
Definition splitter_calls (tr : list event) : list call :=
  omap (λ ev, match ev with
              | ECall (ClassSplitter d s a b) _ => Some (ClassSplitter d s a b)
              | _ => None
              end) tr.

(** Task datasets that were built. *)
Definition splitter_results (tr : list event) : list value :=
  omap (λ ev, match ev with
              | ECall (ClassSplitter _ _ _ _) (inr v) => Some v
              | _ => None
              end) tr.

(** Invocations of the [seed] method, as (receiver, argument). *)
Definition seed_calls (tr : list event) : list (value * value) :=
  omap (λ ev, match ev with
              | ECall (SeedMethod d s) _ => Some (d, s)
              | _ => None
              end) tr.

(** Exceptions that came out of a collaborator. *)
Definition raised_by_collaborators (tr : list event) : list exn :=
  omap (λ ev, match ev with ECall _ (inl e) => Some e | _ => None end) tr.

(** ** The module *)

Definition ways_ignored_warning : warning :=
  Warning ("Both arguments `ways` and `num_classes_per_task` were "
           +:+ "set in the helper function for the number of classes per task. "
           +:+ "Ignoring the argument `ways`.") 2.

Definition split_size_warning (ways : Z) : warning :=
  Warning ("The number of ways is (" +:+ pretty ways
           +:+ "), but the default splits train/val/test "
           +:+ "contain only 3/2/2 classes respectively. Unless you use a custom"
           +:+ "split, are label augmentation, it may be possible that there are not "
           +:+ "enough classes in the split.") 1.

(** The call [f(..., name=v, **kwargs)]: a name given both explicitly and
    through [**kwargs] is a [TypeError], raised before [f] is entered. *)
Definition check_keywords (explicit : list string) (kwargs : kwargs_t) : prog unit :=
  match filter (λ k, is_Some (kwargs !! k)) explicit with
  | [] => Ret tt
  | k :: _ => Raise (TypeError_multiple_values k)
  end.

(** [klass(folder, num_classes_per_task=ways, **kwargs)] *)
Definition construct (klass : meta_class) (folder : string) (ways : value)
    (kwargs : kwargs_t) : prog value :=
  check_keywords ["num_classes_per_task"] kwargs >>
  call_ext (ClassDataset klass folder (<["num_classes_per_task" := ways]> kwargs)).

Definition helper_with_default_tabular (klass : meta_class) (folder : string)
    (shots ways : Z) (shuffle : bool) (test_shots seed : option Z)
    (defaults : option kwargs_t) (kwargs : kwargs_t) : prog value :=
  let defaults : kwargs_t :=
    match defaults with None => ∅ | Some d => d end in
  let* ways := match kwargs !! "num_classes_per_task" with
                | Some v => warn ways_ignored_warning >> Ret v
                | None => Ret (VInt ways)
                end in
  let kwargs :=
    match kwargs !! "transform" with
    | None => <["transform" := dict_get defaults "transform" NumpyToTorch]> kwargs
    | Some _ => kwargs
    end in
  let kwargs :=
    match kwargs !! "target_transform" with
    | None => <["target_transform" :=
                 dict_get defaults "target_transform" (Categorical ways)]> kwargs
    | Some _ => kwargs
    end in
  let kwargs :=
    match kwargs !! "class_augmentations" with
    | None => <["class_augmentations" :=
                 dict_get defaults "class_augmentations" VNone]> kwargs
    | Some _ => kwargs
    end in
  let test_shots : Z :=
    match test_shots with None => shots | Some t => t end in
  let* dataset := construct klass folder ways kwargs in
  let* dataset :=
    call_ext (ClassSplitter dataset shuffle (VInt shots) (VInt test_shots)) in
  call_ext (SeedMethod dataset (of_optional seed)) >>
  Ret dataset.

(** The call
    [helper_with_default_tabular(klass, folder, shots, ways, shuffle=shuffle,
       test_shots=test_shots, seed=seed, defaults=None, **kwargs)]
    as the entry points write it: the names given explicitly, and the names
    of the parameters filled by position, must not come again through
    [**kwargs]. *)
Definition call_helper (klass : meta_class) (folder : string)
    (shots ways : Z) (shuffle : bool) (test_shots seed : option Z)
    (defaults : option kwargs_t) (kwargs : kwargs_t) : prog value :=
  check_keywords ["shuffle"; "test_shots"; "seed"; "defaults"] kwargs >>
  check_keywords ["klass"; "folder"; "shots"; "ways"] kwargs >>
  helper_with_default_tabular klass folder shots ways shuffle test_shots seed
    defaults kwargs.

Definition covertype (folder : string) (shots ways : Z) (shuffle : bool)
    (test_shots seed : option Z) (kwargs : kwargs_t) : prog value :=
  when (3 <? ways)%Z (warn (split_size_warning ways)) >>
  call_helper Covertype folder shots ways shuffle test_shots seed None kwargs.

Definition letter (folder : string) (shots ways : Z) (shuffle : bool)
    (test_shots seed : option Z) (kwargs : kwargs_t) : prog value :=
  when (3 <? ways)%Z (warn (split_size_warning ways)) >>
  call_helper Letter folder shots ways shuffle test_shots seed None kwargs.

(** ** Vocabulary of the specification *)

(** One default-resolution step: a key the caller did not give is filled
    from [defaults] when it provides it, else from the fixed fallback. *)
Definition fill_default (defaults : kwargs_t) (key : string) (fallback : value)
    (kwargs : kwargs_t) : kwargs_t :=
  match kwargs !! key with
  | None => <[key := dict_get defaults key fallback]> kwargs
  | Some _ => kwargs
  end.

(** The Resolved Configuration: steps 2, 3 and 4 of the protocol. *)
Definition resolved_kwargs (defaults : option kwargs_t) (ways : value)
    (kwargs : kwargs_t) : kwargs_t :=
  let d := default ∅ defaults in
  fill_default d "class_augmentations" VNone
    (fill_default d "target_transform" (Categorical ways)
       (fill_default d "transform" NumpyToTorch kwargs)).

(** The number of classes after step 1. *)
Definition effective_ways (ways : Z) (kwargs : kwargs_t) : value :=
  dict_get kwargs "num_classes_per_task" (VInt ways).

(** What the constructor must find under [key]. *)
Definition expected_option (defaults : option kwargs_t) (kwargs : kwargs_t)
    (key : string) (fallback : value) : value :=
  match kwargs !! key with
  | Some v => v
  | None => match default ∅ defaults !! key with
            | Some d => d
            | None => fallback
            end
  end.

(** The construction pipeline (steps 6 to 9) and the places where it can
    stop: [first] is the constructor call, [second] the split operator
    applied to what the constructor returned, [third] the seeding of what
    the split operator returned. *)
Inductive pipeline (first : call) (second third : value → call) :
    list event → outcome → Prop :=
| pipeline_stop_1 e :
    pipeline first second third [ECall first (inl e)] (inl e)
| pipeline_stop_2 ds e :
    pipeline first second third
      [ECall first (inr ds); ECall (second ds) (inl e)] (inl e)
| pipeline_stop_3 ds d e :
    pipeline first second third
      [ECall first (inr ds); ECall (second ds) (inr d); ECall (third d) (inl e)]
      (inl e)
| pipeline_done ds d r :
    pipeline first second third
      [ECall first (inr ds); ECall (second ds) (inr d); ECall (third d) (inr r)]
      (inr d).


(** Put warnings in front of a run. *)
Definition after_warnings {A : Type} (ws : list warning)
    (r : list event * (exn + A)) : list event * (exn + A) :=
  ((map EWarn ws ++ r.1)%list, r.2).

(** Collaborators that always succeed and hand out a new object at every
    call. *)
Definition fresh_objects : oracle :=
  λ hist _, inr (VRef (Pos.of_succ_nat (length hist))).

(** Collaborators whose class-selection dataset constructor finds no data. *)
Definition missing_data : oracle :=
  λ hist c,
    match c with
    | ClassDataset _ _ _ => inl (Raised "FileNotFoundError" "no such folder")
    | _ => inr (VRef (Pos.of_succ_nat (length hist)))
    end.

(** The parameter names of [helper_with_default_tabular].  An entry point
    that finds one of them in its own [**kwargs] hands it on next to the
    argument it passes itself. *)
Definition helper_parameters : list string :=
  ["shuffle"; "test_shots"; "seed"; "defaults";
   "klass"; "folder"; "shots"; "ways"].

Definition clashing (kwargs : kwargs_t) : Prop :=
  Exists (λ k, is_Some (kwargs !! k)) helper_parameters.

(** The warnings of an entry-point call, read off its arguments. *)
Definition entry_point_warnings (ways : Z) (kwargs : kwargs_t) : list warning :=
  ((if (3 <? ways)%Z then [split_size_warning ways] else []) ++
   (if decide (clashing kwargs) then []
    else match kwargs !! "num_classes_per_task" with
         | Some _ => [ways_ignored_warning]
         | None => []
         end))%list.

(** The three options the Task Builder resolves. *)
Definition resolved_options : list string :=
  ["transform"; "target_transform"; "class_augmentations"].

(** * Properties *)

(** ** The monad and its runs *)

Lemma exec_bind {A B : Type} (env : oracle) (p : prog A) (f : A → prog B) hist :
  exec env hist (bind p f) =
  match exec env hist p with
  | (tr, inl e) => (tr, inl e)
  | (tr, inr a) =>
      let '(tr', r) := exec env (hist ++ calls_of tr)%list (f a) in
      ((tr ++ tr')%list, r)
  end.
Proof.
  revert hist. induction p as [a|e|w k IH|c k IH]; intros hist; simpl.
  - rewrite app_nil_r. by destruct (exec env hist (f a)).
  - done.
  - rewrite IH. destruct (exec env hist k) as [tr [e|a]]; [done|].
    simpl. by destruct (exec env _ (f a)).
  - destruct (env hist c) as [e|v]; [done|].
    rewrite IH. destruct (exec env _ (k v)) as [tr [e|a]]; [done|].
    unfold calls_of at 1. simpl. fold (calls_of tr).
    rewrite <- app_assoc. simpl. by destruct (exec env _ (f a)).
Qed.


Lemma run_warn {A : Type} (env : oracle) (w : warning) (p : prog A) :
  run env (warn w >> p) = after_warnings [w] (run env p).
Proof. unfold run, after_warnings. simpl. by destruct (exec env [] p). Qed.

Lemma run_when {A : Type} (env : oracle) (c : bool) (w : warning) (p : prog A) :
  run env (when c (warn w) >> p) =
  after_warnings (if c then [w] else []) (run env p).
Proof.
  destruct c; [apply run_warn|].
  unfold run, after_warnings. simpl. by destruct (exec env [] p).
Qed.

(** ** Keyword dictionaries *)

Lemma fill_default_lookup (d kw : kwargs_t) key fb :
  fill_default d key fb kw !! key =
  Some (match kw !! key with Some v => v | None => dict_get d key fb end).
Proof.
  unfold fill_default. destruct (kw !! key) eqn:E; [done|].
  by rewrite lookup_insert_eq.
Qed.

Lemma fill_default_lookup_ne (d kw : kwargs_t) key key' fb :
  key ≠ key' → fill_default d key fb kw !! key' = kw !! key'.
Proof.
  intros Hne. unfold fill_default. destruct (kw !! key); [done|].
  by rewrite lookup_insert_ne.
Qed.

Lemma resolved_lookup_transform defaults ways (kw : kwargs_t) :
  resolved_kwargs defaults ways kw !! "transform" =
  Some (expected_option defaults kw "transform" NumpyToTorch).
Proof.
  unfold resolved_kwargs, expected_option, dict_get.
  rewrite !fill_default_lookup_ne by done. by rewrite fill_default_lookup.
Qed.

Lemma resolved_lookup_target_transform defaults ways (kw : kwargs_t) :
  resolved_kwargs defaults ways kw !! "target_transform" =
  Some (expected_option defaults kw "target_transform" (Categorical ways)).
Proof.
  unfold resolved_kwargs, expected_option, dict_get.
  rewrite fill_default_lookup_ne by done. rewrite fill_default_lookup.
  by rewrite fill_default_lookup_ne by done.
Qed.

Lemma resolved_lookup_class_augmentations defaults ways (kw : kwargs_t) :
  resolved_kwargs defaults ways kw !! "class_augmentations" =
  Some (expected_option defaults kw "class_augmentations" VNone).
Proof.
  unfold resolved_kwargs, expected_option, dict_get.
  rewrite fill_default_lookup. by rewrite !fill_default_lookup_ne by done.
Qed.

Lemma resolved_lookup_other defaults ways (kw : kwargs_t) key :
  key ≠ "transform" → key ≠ "target_transform" → key ≠ "class_augmentations" →
  resolved_kwargs defaults ways kw !! key = kw !! key.
Proof.
  intros H1 H2 H3. unfold resolved_kwargs.
  by rewrite !fill_default_lookup_ne by done.
Qed.

Lemma check_keywords_single (kw : kwargs_t) key :
  check_keywords [key] kw =
  match kw !! key with
  | Some _ => Raise (TypeError_multiple_values key)
  | None => Ret tt
  end.
Proof.
  unfold check_keywords. rewrite filter_cons, filter_nil.
  destruct (kw !! key) eqn:E; case_decide as Hd; try done.
  by destruct Hd.
Qed.

(** ** Runs of the Task Builder *)

Section TaskBuilder.
Variable env : oracle.
Variables (klass : meta_class) (folder : string) (shots ways : Z).
Variables (shuffle : bool) (test_shots seed : option Z).
Variables (defaults : option kwargs_t) (kwargs : kwargs_t).

Let builder : prog value :=
  helper_with_default_tabular klass folder shots ways shuffle test_shots seed
    defaults kwargs.

(** The body, with the three resolution steps folded. *)
Lemma helper_resolved :
  builder =
  (let* ways := match kwargs !! "num_classes_per_task" with
                | Some v => warn ways_ignored_warning >> Ret v
                | None => Ret (VInt ways)
                end in
   let* dataset :=
     construct klass folder ways (resolved_kwargs defaults ways kwargs) in
   let* dataset :=
     call_ext (ClassSplitter dataset shuffle (VInt shots)
                 (VInt (default shots test_shots))) in
   call_ext (SeedMethod dataset (of_optional seed)) >>
   Ret dataset).
Proof. subst builder. by destruct defaults, test_shots. Qed.

(** With [num_classes_per_task] among the extra options the call stops
    at the constructor invocation, after the warning. *)
Lemma run_helper_duplicate w2 :
  kwargs !! "num_classes_per_task" = Some w2 →
  run env builder =
  ([EWarn ways_ignored_warning],
   inl (TypeError_multiple_values "num_classes_per_task")).
Proof.
  intros H. rewrite helper_resolved, H. unfold run, construct. simpl.
  rewrite check_keywords_single, resolved_lookup_other, H by done.
  done.
Qed.

(** Without it, the run is the three collaborator calls in a row, cut
    short by the first one that raises. *)
Lemma run_helper_plain :
  kwargs !! "num_classes_per_task" = None →
  let c1 := ClassDataset klass folder
              (<["num_classes_per_task" := VInt ways]>
                 (resolved_kwargs defaults (VInt ways) kwargs)) in
  let c2 ds := ClassSplitter ds shuffle (VInt shots)
                 (VInt (default shots test_shots)) in
  let c3 d := SeedMethod d (of_optional seed) in
  run env builder =
  match env [] c1 with
  | inl e => ([ECall c1 (inl e)], inl e)
  | inr ds =>
      match env [(c1, inr ds)] (c2 ds) with
      | inl e => ([ECall c1 (inr ds); ECall (c2 ds) (inl e)], inl e)
      | inr d =>
          match env [(c1, inr ds); (c2 ds, inr d)] (c3 d) with
          | inl e =>
              ([ECall c1 (inr ds); ECall (c2 ds) (inr d); ECall (c3 d) (inl e)],
               inl e)
          | inr r =>
              ([ECall c1 (inr ds); ECall (c2 ds) (inr d); ECall (c3 d) (inr r)],
               inr d)
          end
      end
  end.
Proof.
  intros H c1 c2 c3. rewrite helper_resolved, H. unfold run, construct. simpl.
  rewrite check_keywords_single, resolved_lookup_other, H by done. simpl.
  fold c1. destruct (env [] c1) as [e|ds]; [done|]. simpl.
  fold (c2 ds). destruct (env _ (c2 ds)) as [e|d]; [done|]. simpl.
  fold (c3 d). by destruct (env _ (c3 d)) as [e|r].
Qed.

(** In every case the run has one of five shapes. *)
Lemma run_helper_cases :
  let c1 := ClassDataset klass folder
              (<["num_classes_per_task" := VInt ways]>
                 (resolved_kwargs defaults (VInt ways) kwargs)) in
  let c2 ds := ClassSplitter ds shuffle (VInt shots)
                 (VInt (default shots test_shots)) in
  let c3 d := SeedMethod d (of_optional seed) in
  (is_Some (kwargs !! "num_classes_per_task") ∧
   run env builder =
     ([EWarn ways_ignored_warning],
      inl (TypeError_multiple_values "num_classes_per_task")))
  ∨ (kwargs !! "num_classes_per_task" = None ∧
     pipeline c1 c2 c3 (run env builder).1 (run env builder).2).
Proof.
  intros c1 c2 c3. destruct (kwargs !! "num_classes_per_task") as [w2|] eqn:H.
  - left. split; [by eexists|]. by eapply run_helper_duplicate.
  - right. split; [done|]. rewrite (run_helper_plain H).
    repeat case_match; simpl.
    + exact (pipeline_stop_1 c1 c2 c3 _).
    + exact (pipeline_stop_2 c1 c2 c3 _ _).
    + exact (pipeline_stop_3 c1 c2 c3 _ _ _).
    + exact (pipeline_done c1 c2 c3 _ _ _).
Qed.
End TaskBuilder.

(** Case analysis on a run of the Task Builder: the duplicate-keyword
    stop, or one of the four shapes of the pipeline. *)
Ltac helper_cases env klass folder shots ways shuffle test_shots seed defaults kwargs :=
  let Hk := fresh "Hkey" in
  let Hr := fresh "Hrun" in
  let Hp := fresh "Hpipe" in
  let Ht := fresh "Htrace" in
  let Ho := fresh "Hout" in
  cbv zeta;
  destruct (run_helper_cases env klass folder shots ways shuffle test_shots seed
              defaults kwargs) as [[Hk Hr]|[Hk Hp]];
  [ cbv zeta in Hr; rewrite Hr
  | cbv zeta in Hp; inversion Hp as [? Ht Ho|? ? Ht Ho|? ? ? Ht Ho|? ? ? Ht Ho];
    rewrite <- ?Ht, <- ?Ho; clear Hp Ht Ho ];
  simpl.

Section Observations.
Variable env : oracle.
Variables (klass : meta_class) (folder : string) (shots ways : Z).
Variables (shuffle : bool) (test_shots seed : option Z).
Variables (defaults : option kwargs_t) (kwargs : kwargs_t).

Let r : list event * outcome :=
  run env (helper_with_default_tabular klass folder shots ways shuffle
             test_shots seed defaults kwargs).

(** The only warning of the Task Builder is the one of step 1. *)
Lemma helper_warnings :
  warnings_of r.1 =
  match kwargs !! "num_classes_per_task" with
  | Some _ => [ways_ignored_warning]
  | None => []
  end.
Proof.
  subst r.
  helper_cases env klass folder shots ways shuffle test_shots seed defaults kwargs.
  - by destruct Hkey as [? ->].
  - by rewrite Hkey.
  - by rewrite Hkey.
  - by rewrite Hkey.
  - by rewrite Hkey.
Qed.

(** Every class-selection dataset that was built is wrapped once, by a
    split operator with the caller's [shuffle] and [shots] and the
    resolved [test_shots]. *)
Lemma splitter_configuration :
  splitter_calls r.1 =
  (λ ds, ClassSplitter ds shuffle (VInt shots) (VInt (default shots test_shots)))
    <$> class_results r.1.
Proof.
  subst r.
  by helper_cases env klass folder shots ways shuffle test_shots seed defaults kwargs.
Qed.

(** A call that returns has built exactly one task dataset, the one it
    returns. *)
Lemma returned_dataset :
  match r.2 with
  | inr d => splitter_results r.1 = [d] ∧ length (splitter_calls r.1) = 1%nat
  | inl _ => True
  end.
Proof.
  subst r.
  by helper_cases env klass folder shots ways shuffle test_shots seed defaults kwargs.
Qed.

(** A call that returns has constructed exactly one split operator, on
    the caller's [shuffle] and [shots] and the resolved [test_shots]. *)
Lemma returned_splitter_call :
  match r.2 with
  | inr _ =>
      ∃ ds, splitter_calls r.1 =
              [ClassSplitter ds shuffle (VInt shots)
                 (VInt (default shots test_shots))]
  | inl _ => True
  end.
Proof.
  subst r.
  helper_cases env klass folder shots ways shuffle test_shots seed defaults kwargs;
    try done.
  by eexists.
Qed.

(** Outside the duplicate-keyword stop, a failing call fails with the
    exception of the one collaborator that raised; a returning call saw
    no collaborator raise. *)
Lemma errors_from_collaborators :
  kwargs !! "num_classes_per_task" = None →
  raised_by_collaborators r.1 =
  match r.2 with inl e => [e] | inr _ => [] end.
Proof.
  intros Hnone. subst r.
  helper_cases env klass folder shots ways shuffle test_shots seed defaults kwargs;
    try done.
  destruct Hkey as [? Hkey]. congruence.
Qed.
End Observations.

(** ** Runs of the entry points *)

Lemma check_keywords_cases (names : list string) (kw : kwargs_t) :
  check_keywords names kw = Ret tt ∨
  ∃ k, k ∈ names ∧ is_Some (kw !! k) ∧
       check_keywords names kw = Raise (TypeError_multiple_values k).
Proof.
  unfold check_keywords.
  destruct (filter _ names) as [|k rest] eqn:E; [by left|right].
  exists k. assert (k ∈ filter (λ k, is_Some (kw !! k)) names) as Hin.
  { rewrite E. by left. }
  apply list_elem_of_filter in Hin as [? ?]. done.
Qed.

Lemma check_keywords_free (names : list string) (kw : kwargs_t) :
  (∀ k, k ∈ names → kw !! k = None) → check_keywords names kw = Ret tt.
Proof.
  intros Hfree.
  destruct (check_keywords_cases names kw) as [|(k & Hin & [v Hk] & _)]; [done|].
  rewrite (Hfree k Hin) in Hk. done.
Qed.


(** Extra options that name no parameter of the Task Builder reach its
    body unchanged. *)
Lemma run_call_helper_plain env klass folder shots ways shuffle test_shots seed
    defaults (kwargs : kwargs_t) :
  (∀ k, k ∈ (["shuffle"; "test_shots"; "seed"; "defaults"] ++
              ["klass"; "folder"; "shots"; "ways"])%list → kwargs !! k = None) →
  run env (call_helper klass folder shots ways shuffle test_shots seed
             defaults kwargs)
  = run env (helper_with_default_tabular klass folder shots ways shuffle
               test_shots seed defaults kwargs).
Proof.
  intros Hfree. unfold call_helper.
  rewrite !check_keywords_free;
    [done|intros k Hk; apply Hfree, elem_of_app; auto..].
Qed.



(** ** Concrete runs *)

Example run_covertype_2_way :
  calls_of (run fresh_objects (covertype "data" 1 2 true None (Some 0) ∅)).1 =
  [(ClassDataset Covertype "data"
      (<["num_classes_per_task" := VInt 2]>
         (<["class_augmentations" := VNone]>
            (<["target_transform" := VCategorical (VInt 2)]>
               (<["transform" := VNumpyToTorch]> ∅)))), inr (VRef 1));
   (ClassSplitter (VRef 1) true (VInt 1) (VInt 1), inr (VRef 2));
   (SeedMethod (VRef 2) (VInt 0), inr (VRef 3))].
Proof. by vm_compute. Qed.

Example run_letter_missing_data :
  (run missing_data (letter "nowhere" 5 3 false (Some 2) None ∅)).2 =
  inl (Raised "FileNotFoundError" "no such folder").
Proof. by vm_compute. Qed.

(** ** Keyword clashes in the delegated call *)

Lemma check_keywords_ret (names : list string) (kw : kwargs_t) :
  check_keywords names kw = Ret tt → ∀ k, k ∈ names → kw !! k = None.
Proof.
  unfold check_keywords. intros Hret k Hin.
  destruct (filter _ names) as [|k' rest] eqn:E; [|done].
  destruct (kw !! k) as [v|] eqn:Hk; [|done].
  exfalso. eapply (filter_nil_not_elem_of _ _ k E); [by eexists|done].
Qed.

Lemma call_helper_cases env klass folder shots ways shuffle test_shots seed
    defaults (kwargs : kwargs_t) :
  (clashing kwargs ∧
   ∃ k, k ∈ helper_parameters ∧ is_Some (kwargs !! k) ∧
        run env (call_helper klass folder shots ways shuffle test_shots seed
                   defaults kwargs) = ([], inl (TypeError_multiple_values k)))
  ∨ (¬ clashing kwargs ∧
     run env (call_helper klass folder shots ways shuffle test_shots seed
                defaults kwargs)
     = run env (helper_with_default_tabular klass folder shots ways shuffle
                  test_shots seed defaults kwargs)).
Proof.
  unfold call_helper, clashing, helper_parameters.
  change ["shuffle"; "test_shots"; "seed"; "defaults";
          "klass"; "folder"; "shots"; "ways"]
    with (["shuffle"; "test_shots"; "seed"; "defaults"] ++
          ["klass"; "folder"; "shots"; "ways"])%list.
  destruct (check_keywords_cases ["shuffle"; "test_shots"; "seed"; "defaults"] kwargs)
    as [H1|(k & Hin & Hk & ->)].
  - destruct (check_keywords_cases ["klass"; "folder"; "shots"; "ways"] kwargs)
      as [H2|(k & Hin & Hk & H2)]; rewrite H1, H2.
    + right. split; [|done]. rewrite Exists_app, !Exists_exists.
      intros [(k & Hin & [v Hk])|(k & Hin & [v Hk])].
      * by rewrite (check_keywords_ret _ _ H1 k Hin) in Hk.
      * by rewrite (check_keywords_ret _ _ H2 k Hin) in Hk.
    + left. split.
      * rewrite Exists_app, !Exists_exists. right. by exists k.
      * exists k. split; [apply elem_of_app; by right|done].
  - left. split.
    + rewrite Exists_app, !Exists_exists. left. by exists k.
    + exists k. split; [apply elem_of_app; by left|done].
Qed.

Lemma warnings_after_warnings {A : Type} ws (r : list event * (exn + A)) :
  warnings_of (after_warnings ws r).1 = (ws ++ warnings_of r.1)%list.
Proof.
  unfold after_warnings, warnings_of. simpl. rewrite omap_app. f_equal.
  induction ws as [|w ws IH]; [done|]. simpl. by f_equal.
Qed.

Lemma calls_after_warnings {A : Type} ws (r : list event * (exn + A)) :
  calls_of (after_warnings ws r).1 = calls_of r.1.
Proof.
  unfold after_warnings, calls_of. simpl. rewrite omap_app.
  by induction ws as [|w ws IH].
Qed.

(** Both entry points are one warning check in front of one delegated
    call. *)
Lemma run_entry_point env folder shots ways shuffle test_shots seed
    (kwargs : kwargs_t) :
  let ws := if (3 <? ways)%Z then [split_size_warning ways] else [] in
  run env (covertype folder shots ways shuffle test_shots seed kwargs) =
    after_warnings ws
      (run env (call_helper Covertype folder shots ways shuffle test_shots seed
                  None kwargs))
  ∧ run env (letter folder shots ways shuffle test_shots seed kwargs) =
    after_warnings ws
      (run env (call_helper Letter folder shots ways shuffle test_shots seed
                  None kwargs)).
Proof. split; apply run_when. Qed.

(** ** The claims *)

(** C1 (the code departs from it).  The claim: with [ways=w1] and
    [num_classes_per_task=w2] the effective number of classes is [w2],
    one warning is emitted, and the construction completes.  On the call
    [helper_with_default_tabular(Covertype, "data", 1, 3,
    num_classes_per_task=2)] the override and the single warning are
    there, but whatever the collaborators do the call ends in the
    duplicate-keyword [TypeError] and no dataset is constructed. *)
Theorem C1_override_then_type_error (env : oracle) :
  let kwargs : kwargs_t := {["num_classes_per_task" := VInt 2]} in
  let r := run env (helper_with_default_tabular Covertype "data" 1 3 true
                      None None None kwargs) in
  effective_ways 3 kwargs = VInt 2
  ∧ warnings_of r.1 = [ways_ignored_warning]
  ∧ class_calls r.1 = []
  ∧ r.2 = inl (TypeError_multiple_values "num_classes_per_task").
Proof.
  intros kwargs r. subst r.
  rewrite (run_helper_duplicate env Covertype "data" 1 3 true None None None
             kwargs (VInt 2)) by done.
  done.
Qed.

(** C2.  When [test_shots] is omitted or [None], every split operator the
    Task Builder constructs wraps the class-selection dataset that was
    built, with [num_test_per_class] equal to [shots]; a call that
    returns has constructed exactly one. *)
Theorem C2_test_shots_defaults_to_shots (env : oracle) (klass : meta_class)
    (folder : string) (shots ways : Z) (shuffle : bool) (seed : option Z)
    (defaults : option kwargs_t) (kwargs : kwargs_t) :
  let r := run env (helper_with_default_tabular klass folder shots ways shuffle
                      None seed defaults kwargs) in
  splitter_calls r.1 =
    (λ ds, ClassSplitter ds shuffle (VInt shots) (VInt shots)) <$> class_results r.1
  ∧ match r.2 with
    | inr _ => length (splitter_calls r.1) = 1%nat
    | inl _ => True
    end.
Proof.
  intros r. subst r. split.
  - apply (splitter_configuration env klass folder shots ways shuffle None).
  - pose proof (returned_dataset env klass folder shots ways shuffle None seed
                  defaults kwargs) as H.
    cbv zeta in H. destruct (run _ _).2; [done|]. apply H.
Qed.

(** C3.  Whenever the class-selection dataset constructor is entered, its
    keyword configuration has the keys [transform], [target_transform]
    and [class_augmentations]; each holds the caller's value when given,
    else the value of the [defaults] mapping when it provides one, else
    the fixed fallback: [NumpyToTorch()], [Categorical] of the effective
    ways, [None].  The constructor is entered once, unless
    [num_classes_per_task] is among the extra options. *)
Theorem C3_options_always_present (env : oracle) (klass : meta_class)
    (folder : string) (shots ways : Z) (shuffle : bool)
    (test_shots seed : option Z) (defaults : option kwargs_t) (kwargs : kwargs_t) :
  let r := run env (helper_with_default_tabular klass folder shots ways shuffle
                      test_shots seed defaults kwargs) in
  Forall (λ c : meta_class * string * kwargs_t,
            c.2 !! "transform" =
              Some (expected_option defaults kwargs "transform" NumpyToTorch)
            ∧ c.2 !! "target_transform" =
              Some (expected_option defaults kwargs "target_transform"
                      (Categorical (effective_ways ways kwargs)))
            ∧ c.2 !! "class_augmentations" =
              Some (expected_option defaults kwargs "class_augmentations" VNone))
         (class_calls r.1)
  ∧ length (class_calls r.1) =
    match kwargs !! "num_classes_per_task" with Some _ => 0%nat | None => 1%nat end.
Proof.
  assert (∀ kw : kwargs_t,
    kwargs !! "num_classes_per_task" = None →
    kw = <["num_classes_per_task" := VInt ways]>
           (resolved_kwargs defaults (VInt ways) kwargs) →
    kw !! "transform" =
      Some (expected_option defaults kwargs "transform" NumpyToTorch)
    ∧ kw !! "target_transform" =
      Some (expected_option defaults kwargs "target_transform"
              (Categorical (effective_ways ways kwargs)))
    ∧ kw !! "class_augmentations" =
      Some (expected_option defaults kwargs "class_augmentations" VNone)) as Hkw.
  { intros kw Hnone ->. unfold effective_ways, dict_get. rewrite Hnone.
    rewrite !lookup_insert_ne by done.
    by rewrite resolved_lookup_transform, resolved_lookup_target_transform,
      resolved_lookup_class_augmentations. }
  helper_cases env klass folder shots ways shuffle test_shots seed defaults kwargs.
  - destruct Hkey as [? ->]. by split.
  - rewrite Hkey. split; [|done]. repeat constructor; by apply Hkw.
  - rewrite Hkey. split; [|done]. repeat constructor; by apply Hkw.
  - rewrite Hkey. split; [|done]. repeat constructor; by apply Hkw.
  - rewrite Hkey. split; [|done]. repeat constructor; by apply Hkw.
Qed.

(** C4.  With [num_classes_per_task] absent from the extra options, a
    call is the pipeline in its fixed order: the class-selection dataset
    is constructed as [klass(folder, num_classes_per_task=ways,
    **kwargs)] on the resolved options, what it returns is wrapped by
    [ClassSplitter] with [shuffle], [num_train_per_class=shots] and
    [num_test_per_class=test_shots], the wrapped dataset is seeded, and
    the wrapped dataset is returned.  The call fails only with the
    exception of a collaborator that raised. *)
Theorem C4_construction_order (env : oracle) (klass : meta_class)
    (folder : string) (shots ways : Z) (shuffle : bool)
    (test_shots seed : option Z) (defaults : option kwargs_t) (kwargs : kwargs_t) :
  kwargs !! "num_classes_per_task" = None →
  let r := run env (helper_with_default_tabular klass folder shots ways shuffle
                      test_shots seed defaults kwargs) in
  pipeline
    (ClassDataset klass folder
       (<["num_classes_per_task" := VInt ways]>
          (resolved_kwargs defaults (VInt ways) kwargs)))
    (λ ds, ClassSplitter ds shuffle (VInt shots) (VInt (default shots test_shots)))
    (λ d, SeedMethod d (of_optional seed))
    r.1 r.2
  ∧ raised_by_collaborators r.1 = match r.2 with inl e => [e] | inr _ => [] end.
Proof.
  intros Hnone r. subst r. split.
  - destruct (run_helper_cases env klass folder shots ways shuffle test_shots
                seed defaults kwargs) as [[[? Hsome] _]|[_ Hp]]; [congruence|].
    exact Hp.
  - by apply (errors_from_collaborators env klass folder shots ways shuffle
                test_shots seed defaults kwargs).
Qed.

Lemma C4_construction_order_witness :
  (∅ : kwargs_t) !! "num_classes_per_task" = None
  ∧ let r := run fresh_objects
               (helper_with_default_tabular Covertype "data" 1 2 true None
                  (Some 7) None ∅) in
    pipeline
      (ClassDataset Covertype "data"
         (<["num_classes_per_task" := VInt 2]>
            (resolved_kwargs None (VInt 2) ∅)))
      (λ ds, ClassSplitter ds true (VInt 1) (VInt (default 1 None)))
      (λ d, SeedMethod d (of_optional (Some 7)))
      r.1 r.2
    ∧ raised_by_collaborators r.1 = match r.2 with inl e => [e] | inr _ => [] end.
Proof.
  split; [reflexivity|].
  apply (C4_construction_order fresh_objects Covertype "data" 1 2 true None
           (Some 7) None ∅).
  reflexivity.
Defined.


(** C6.  Every task dataset the Task Builder constructs is seeded, once,
    with the caller's [seed] value, and nothing else is seeded; a call
    that returns has seeded the dataset it returns.  [seed=None] passes
    [None], which is not the value passed for [seed=0]. *)
Theorem C6_seeded_once_with_caller_seed (env : oracle) (klass : meta_class)
    (folder : string) (shots ways : Z) (shuffle : bool)
    (test_shots seed : option Z) (defaults : option kwargs_t) (kwargs : kwargs_t) :
  let r := run env (helper_with_default_tabular klass folder shots ways shuffle
                      test_shots seed defaults kwargs) in
  seed_calls r.1 = (λ d, (d, of_optional seed)) <$> splitter_results r.1
  ∧ (length (splitter_results r.1) ≤ 1)%nat
  ∧ match r.2 with
    | inr d => seed_calls r.1 = [(d, of_optional seed)]
    | inl _ => True
    end
  ∧ of_optional None = VNone
  ∧ of_optional None ≠ of_optional (Some 0).
Proof.
  helper_cases env klass folder shots ways shuffle test_shots seed defaults kwargs;
    repeat split; auto; done.
Qed.



(** C8 (the code departs from it).  The claim: the Task Builder raises
    nothing itself; a failing call fails with a collaborator's exception.
    On the call [helper_with_default_tabular(Covertype, "data", 1, 3,
    num_classes_per_task=2)], with collaborators that never raise, the
    call fails although no collaborator was called and none raised. *)
Theorem C8_error_without_collaborator :
  let r := run fresh_objects
             (helper_with_default_tabular Covertype "data" 1 3 true None None
                None {["num_classes_per_task" := VInt 2]}) in
  (∀ hist c, is_Some (match fresh_objects hist c with
                      | inr v => Some v
                      | inl _ => None
                      end))
  ∧ calls_of r.1 = []
  ∧ raised_by_collaborators r.1 = []
  ∧ r.2 = inl (TypeError_multiple_values "num_classes_per_task").
Proof.
  intros r. subst r. split; [by eexists|].
  rewrite (run_helper_duplicate fresh_objects Covertype "data" 1 3 true None None
             None {["num_classes_per_task" := VInt 2]} (VInt 2)) by done.
  done.
Qed.

(** C9.  With the explicit value [test_shots=0], every split operator the
    Task Builder constructs has [num_test_per_class=0], and a call that
    returns has constructed exactly one, with [num_test_per_class=0]; any
    explicit integer is kept as it is, only [None] is replaced by
    [shots]. *)
Theorem C9_explicit_zero_test_shots (env : oracle) (klass : meta_class)
    (folder : string) (shots ways : Z) (shuffle : bool) (seed : option Z)
    (defaults : option kwargs_t) (kwargs : kwargs_t) :
  let r (test_shots : option Z) :=
    run env (helper_with_default_tabular klass folder shots ways shuffle
               test_shots seed defaults kwargs) in
  let tr (test_shots : option Z) := (r test_shots).1 in
  (splitter_calls (tr (Some 0)) =
     (λ ds, ClassSplitter ds shuffle (VInt shots) (VInt 0))
       <$> class_results (tr (Some 0))
   ∧ ∀ t : Z,
       splitter_calls (tr (Some t)) =
         (λ ds, ClassSplitter ds shuffle (VInt shots) (VInt t))
           <$> class_results (tr (Some t)))
  ∧ match (r (Some 0)).2 with
    | inr _ => ∃ ds, splitter_calls (tr (Some 0)) =
                       [ClassSplitter ds shuffle (VInt shots) (VInt 0)]
    | inl _ => True
    end
  ∧ (∀ t : Z,
       match (r (Some t)).2 with
       | inr _ => ∃ ds, splitter_calls (tr (Some t)) =
                          [ClassSplitter ds shuffle (VInt shots) (VInt t)]
       | inl _ => True
       end)
  ∧ match (r None).2 with
    | inr _ => ∃ ds, splitter_calls (tr None) =
                       [ClassSplitter ds shuffle (VInt shots) (VInt shots)]
    | inl _ => True
    end.
Proof.
  intros r tr. subst tr r. cbv beta.
  split; [split; [|intros t]|split; [|split; [intros t|]]].
  - apply (splitter_configuration env klass folder shots ways shuffle (Some 0)).
  - apply (splitter_configuration env klass folder shots ways shuffle (Some t)).
  - apply (returned_splitter_call env klass folder shots ways shuffle (Some 0)).
  - apply (returned_splitter_call env klass folder shots ways shuffle (Some t)).
  - apply (returned_splitter_call env klass folder shots ways shuffle None).
Qed.

(** C10.  When the extra options contain [num_classes_per_task], the
    key is still in the options the constructor invocation unpacks, next
    to the explicit [num_classes_per_task=ways]: the call raises the
    duplicate-keyword [TypeError] after the warning, and no dataset is
    built or returned. *)
Theorem C10_duplicate_keyword (env : oracle) (klass : meta_class)
    (folder : string) (shots ways : Z) (shuffle : bool)
    (test_shots seed : option Z) (defaults : option kwargs_t)
    (kwargs : kwargs_t) (w2 : value) :
  kwargs !! "num_classes_per_task" = Some w2 →
  let r := run env (helper_with_default_tabular klass folder shots ways shuffle
                      test_shots seed defaults kwargs) in
  resolved_kwargs defaults w2 kwargs !! "num_classes_per_task" = Some w2
  ∧ r = ([EWarn ways_ignored_warning],
         inl (TypeError_multiple_values "num_classes_per_task"))
  ∧ class_calls r.1 = []
  ∧ class_results r.1 = []
  ∧ splitter_results r.1 = [].
Proof.
  intros Hsome r. subst r.
  rewrite (run_helper_duplicate env klass folder shots ways shuffle test_shots
             seed defaults kwargs w2 Hsome).
  by rewrite resolved_lookup_other.
Qed.

Lemma C10_duplicate_keyword_witness :
  let kwargs : kwargs_t := {["num_classes_per_task" := VInt 2]} in
  kwargs !! "num_classes_per_task" = Some (VInt 2)
  ∧ let r := run missing_data
               (helper_with_default_tabular Letter "data" 1 3 true None None
                  None kwargs) in
    resolved_kwargs None (VInt 2) kwargs !! "num_classes_per_task"
      = Some (VInt 2)
    ∧ r = ([EWarn ways_ignored_warning],
           inl (TypeError_multiple_values "num_classes_per_task"))
    ∧ class_calls r.1 = []
    ∧ class_results r.1 = []
    ∧ splitter_results r.1 = [].
Proof.
  intros kwargs. split; [reflexivity|].
  apply (C10_duplicate_keyword missing_data Letter "data" 1 3 true None None
           None kwargs (VInt 2)).
  reflexivity.
Defined.


(** * Further properties of the module *)

(** ** The options the constructor receives *)

Lemma resolved_kwargs_id defaults ways (kwargs : kwargs_t) :
  Forall (λ k, is_Some (kwargs !! k)) resolved_options →
  resolved_kwargs defaults ways kwargs = kwargs.
Proof.
  unfold resolved_options. rewrite !Forall_cons.
  intros ([v1 H1] & [v2 H2] & [v3 H3] & _).
  unfold resolved_kwargs, fill_default. by rewrite H1, H2, H3.
Qed.

Lemma resolved_kwargs_defaults d1 d2 ways (kwargs : kwargs_t) :
  Forall (λ k, kwargs !! k = None → default ∅ d1 !! k = default ∅ d2 !! k)
    resolved_options →
  resolved_kwargs d1 ways kwargs = resolved_kwargs d2 ways kwargs.
Proof.
  unfold resolved_options. rewrite !Forall_cons. intros (H1 & H2 & H3 & _).
  apply map_eq. intros k.
  destruct (decide (k = "transform")) as [->|N1].
  { rewrite !resolved_lookup_transform. unfold expected_option.
    destruct (kwargs !! "transform"); [done|]. by rewrite H1. }
  destruct (decide (k = "target_transform")) as [->|N2].
  { rewrite !resolved_lookup_target_transform. unfold expected_option.
    destruct (kwargs !! "target_transform"); [done|]. by rewrite H2. }
  destruct (decide (k = "class_augmentations")) as [->|N3].
  { rewrite !resolved_lookup_class_augmentations. unfold expected_option.
    destruct (kwargs !! "class_augmentations"); [done|]. by rewrite H3. }
  by rewrite !resolved_lookup_other.
Qed.

(** X1.  Whenever the class-selection dataset constructor is entered, it
    is the caller's [klass] on the caller's [folder], its
    [num_classes_per_task] is the [ways] argument, and every option
    other than the four named ones is exactly as the caller gave it:
    present with the caller's value, or absent.  Nothing else of
    [defaults] reaches the constructor. *)
Theorem X1_options_pass_through (env : oracle) (klass : meta_class)
    (folder : string) (shots ways : Z) (shuffle : bool)
    (test_shots seed : option Z) (defaults : option kwargs_t) (kwargs : kwargs_t) :
  let r := run env (helper_with_default_tabular klass folder shots ways shuffle
                      test_shots seed defaults kwargs) in
  Forall (λ c : meta_class * string * kwargs_t,
            c.1 = (klass, folder)
            ∧ c.2 !! "num_classes_per_task" = Some (VInt ways)
            ∧ ∀ k, k ∉ "num_classes_per_task" :: resolved_options →
                   c.2 !! k = kwargs !! k)
         (class_calls r.1).
Proof.
  assert (∀ kw : kwargs_t,
    kw = <["num_classes_per_task" := VInt ways]>
           (resolved_kwargs defaults (VInt ways) kwargs) →
    kw !! "num_classes_per_task" = Some (VInt ways)
    ∧ ∀ k, k ∉ "num_classes_per_task" :: resolved_options →
           kw !! k = kwargs !! k) as Hkw.
  { intros kw ->. split; [by rewrite lookup_insert_eq|].
    intros k Hk. unfold resolved_options in Hk.
    rewrite !not_elem_of_cons in Hk. destruct Hk as (N0 & N1 & N2 & N3 & _).
    rewrite lookup_insert_ne by done. by apply resolved_lookup_other. }
  helper_cases env klass folder shots ways shuffle test_shots seed defaults kwargs;
    repeat constructor; by apply Hkw.
Qed.

(** X2.  A caller who gives [transform], [target_transform] and
    [class_augmentations] (and no [num_classes_per_task]) gets no default
    at all: the constructor is entered once, with the caller's options
    and [num_classes_per_task=ways], whatever [defaults] holds. *)
Theorem X2_explicit_options_untouched (env : oracle) (klass : meta_class)
    (folder : string) (shots ways : Z) (shuffle : bool)
    (test_shots seed : option Z) (defaults : option kwargs_t) (kwargs : kwargs_t) :
  Forall (λ k, is_Some (kwargs !! k)) resolved_options →
  kwargs !! "num_classes_per_task" = None →
  class_calls (run env (helper_with_default_tabular klass folder shots ways
                          shuffle test_shots seed defaults kwargs)).1
  = [(klass, folder, <["num_classes_per_task" := VInt ways]> kwargs)].
Proof.
  intros Hall Hnone.
  pose proof (resolved_kwargs_id defaults (VInt ways) kwargs Hall) as Hid.
  helper_cases env klass folder shots ways shuffle test_shots seed defaults kwargs;
    rewrite ?Hid; try done.
  destruct Hkey as [? Hkey]. congruence.
Qed.

Lemma X2_explicit_options_untouched_witness :
  let kwargs : kwargs_t :=
    <["transform" := VRef 10]>
      (<["target_transform" := VRef 11]>
         (<["class_augmentations" := VNone]> ∅)) in
  class_calls (run missing_data
                 (helper_with_default_tabular Letter "data" 5 3 true None None
                    (Some {["transform" := VRef 12]}) kwargs)).1
  = [(Letter, "data", <["num_classes_per_task" := VInt 3]> kwargs)].
Proof.
  intros kwargs.
  apply (X2_explicit_options_untouched missing_data Letter "data" 5 3 true None
           None (Some {["transform" := VRef 12]}) kwargs).
  - repeat constructor; by eexists.
  - reflexivity.
Defined.

(** X3.  [defaults] is read only at the options the caller left out: two
    [defaults] mappings (or [None]) that agree there give the same run,
    event for event.  In particular entries of [defaults] under other
    keys, and entries the caller overrides, change nothing. *)
Theorem X3_defaults_read_for_missing_options_only (env : oracle)
    (klass : meta_class) (folder : string) (shots ways : Z) (shuffle : bool)
    (test_shots seed : option Z) (d1 d2 : option kwargs_t) (kwargs : kwargs_t) :
  Forall (λ k, kwargs !! k = None → default ∅ d1 !! k = default ∅ d2 !! k)
    resolved_options →
  run env (helper_with_default_tabular klass folder shots ways shuffle
             test_shots seed d1 kwargs)
  = run env (helper_with_default_tabular klass folder shots ways shuffle
               test_shots seed d2 kwargs).
Proof.
  intros Hagree. rewrite !helper_resolved.
  destruct (kwargs !! "num_classes_per_task") as [w2|]; simpl;
    by rewrite (resolved_kwargs_defaults d1 d2 _ kwargs Hagree).
Qed.

Lemma X3_defaults_read_for_missing_options_only_witness :
  let kwargs : kwargs_t := {["transform" := VRef 10]} in
  let d2 : kwargs_t := <["transform" := VRef 12]> {["root" := VStr "x"]} in
  run fresh_objects
    (helper_with_default_tabular Covertype "data" 1 2 true None None None kwargs)
  = run fresh_objects
      (helper_with_default_tabular Covertype "data" 1 2 true None None (Some d2)
         kwargs).
Proof.
  intros kwargs d2.
  apply (X3_defaults_read_for_missing_options_only fresh_objects Covertype
           "data" 1 2 true None None None (Some d2) kwargs).
  repeat constructor; intros H; (reflexivity || discriminate H).
Defined.

(** ** The entry points *)

Lemma call_helper_warnings_eq env klass folder shots ways shuffle test_shots seed
    defaults (kwargs : kwargs_t) :
  warnings_of (run env (call_helper klass folder shots ways shuffle test_shots
                          seed defaults kwargs)).1
  = if decide (clashing kwargs) then []
    else match kwargs !! "num_classes_per_task" with
         | Some _ => [ways_ignored_warning]
         | None => []
         end.
Proof.
  destruct (call_helper_cases env klass folder shots ways shuffle test_shots seed
              defaults kwargs) as [[Hc (k & _ & _ & ->)]|[Hc ->]];
    case_decide; try done.
  apply helper_warnings.
Qed.

(** X4.  The warnings of [covertype] and of [letter] are fixed by [ways]
    and the extra options alone: the split-size warning first, exactly
    when [ways > 3] (the [ways] argument; a [num_classes_per_task] among
    the options does not count), then the ways-ignored warning when
    [num_classes_per_task] is among the options and no option is named
    like a parameter of the Task Builder.  [letter] warns at the same
    threshold and with the same text as [covertype]. *)
Theorem X4_entry_point_warnings (env : oracle) (folder : string)
    (shots ways : Z) (shuffle : bool) (test_shots seed : option Z)
    (kwargs : kwargs_t) :
  warnings_of (run env (covertype folder shots ways shuffle test_shots seed
                          kwargs)).1
    = entry_point_warnings ways kwargs
  ∧ warnings_of (run env (letter folder shots ways shuffle test_shots seed
                            kwargs)).1
    = entry_point_warnings ways kwargs.
Proof.
  destruct (run_entry_point env folder shots ways shuffle test_shots seed kwargs)
    as [-> ->].
  rewrite !warnings_after_warnings, !call_helper_warnings_eq. done.
Qed.

(** X5.  Through the entry points, [num_classes_per_task] among the extra
    options never yields a dataset: the call ends in a [TypeError] for a
    keyword the caller gave, and neither the dataset constructor nor
    [ClassSplitter] nor [seed] is called. *)
Theorem X5_override_fails_through_entry_points (env : oracle) (folder : string)
    (shots ways : Z) (shuffle : bool) (test_shots seed : option Z)
    (kwargs : kwargs_t) :
  is_Some (kwargs !! "num_classes_per_task") →
  let c := run env (covertype folder shots ways shuffle test_shots seed kwargs) in
  let l := run env (letter folder shots ways shuffle test_shots seed kwargs) in
  (calls_of c.1 = [] ∧
   ∃ k, is_Some (kwargs !! k) ∧ c.2 = inl (TypeError_multiple_values k))
  ∧ (calls_of l.1 = [] ∧
     ∃ k, is_Some (kwargs !! k) ∧ l.2 = inl (TypeError_multiple_values k)).
Proof.
  intros [w2 Hsome] c l. subst c l.
  destruct (run_entry_point env folder shots ways shuffle test_shots seed kwargs)
    as [-> ->].
  rewrite !calls_after_warnings. unfold after_warnings. simpl.
  split.
  - destruct (call_helper_cases env Covertype folder shots ways shuffle
                test_shots seed None kwargs) as [[_ (k & _ & Hk & ->)]|[_ ->]].
    + split; [done|]. by exists k.
    + rewrite (run_helper_duplicate env Covertype folder shots ways shuffle
                 test_shots seed None kwargs w2 Hsome).
      split; [done|]. exists "num_classes_per_task". split; [by eexists|done].
  - destruct (call_helper_cases env Letter folder shots ways shuffle
                test_shots seed None kwargs) as [[_ (k & _ & Hk & ->)]|[_ ->]].
    + split; [done|]. by exists k.
    + rewrite (run_helper_duplicate env Letter folder shots ways shuffle
                 test_shots seed None kwargs w2 Hsome).
      split; [done|]. exists "num_classes_per_task". split; [by eexists|done].
Qed.

Lemma X5_override_fails_through_entry_points_witness :
  let kwargs : kwargs_t := {["num_classes_per_task" := VInt 2]} in
  let c := run fresh_objects (covertype "data" 1 5 true None None kwargs) in
  let l := run fresh_objects (letter "data" 1 5 true None None kwargs) in
  is_Some (kwargs !! "num_classes_per_task")
  ∧ (calls_of c.1 = [] ∧
     ∃ k, is_Some (kwargs !! k) ∧ c.2 = inl (TypeError_multiple_values k))
  ∧ (calls_of l.1 = [] ∧
     ∃ k, is_Some (kwargs !! k) ∧ l.2 = inl (TypeError_multiple_values k)).
Proof.
  intros kwargs c l.
  assert (is_Some (kwargs !! "num_classes_per_task")) as H by (by eexists).
  split; [exact H|].
  exact (X5_override_fails_through_entry_points fresh_objects "data" 1 5 true
           None None kwargs H).
Defined.

(** X6.  An extra option named like a parameter of the Task Builder
    ([defaults], [klass], ...) makes an entry point fail before the Task
    Builder runs: nothing but the split-size warning is emitted, nothing
    is constructed or called, and the call ends in the [TypeError] for
    such a name. *)
Theorem X6_parameter_name_among_options (env : oracle) (folder : string)
    (shots ways : Z) (shuffle : bool) (test_shots seed : option Z)
    (kwargs : kwargs_t) :
  clashing kwargs →
  let ws := if (3 <? ways)%Z then [split_size_warning ways] else [] in
  let c := run env (covertype folder shots ways shuffle test_shots seed kwargs) in
  let l := run env (letter folder shots ways shuffle test_shots seed kwargs) in
  (c.1 = map EWarn ws ∧
   ∃ k, k ∈ helper_parameters ∧ is_Some (kwargs !! k)
        ∧ c.2 = inl (TypeError_multiple_values k))
  ∧ (l.1 = map EWarn ws ∧
     ∃ k, k ∈ helper_parameters ∧ is_Some (kwargs !! k)
          ∧ l.2 = inl (TypeError_multiple_values k)).
Proof.
  intros Hclash ws c l. subst c l.
  destruct (run_entry_point env folder shots ways shuffle test_shots seed kwargs)
    as [-> ->].
  fold ws. unfold after_warnings. simpl. split.
  - destruct (call_helper_cases env Covertype folder shots ways shuffle
                test_shots seed None kwargs) as [[_ (k & Hin & Hk & ->)]|[N _]];
      [|done].
    simpl. rewrite app_nil_r. split; [done|]. by exists k.
  - destruct (call_helper_cases env Letter folder shots ways shuffle
                test_shots seed None kwargs) as [[_ (k & Hin & Hk & ->)]|[N _]];
      [|done].
    simpl. rewrite app_nil_r. split; [done|]. by exists k.
Qed.

Lemma X6_parameter_name_among_options_witness :
  let kwargs : kwargs_t := {["defaults" := VNone]} in
  let c := run fresh_objects (covertype "data" 1 4 true None None kwargs) in
  let l := run fresh_objects (letter "data" 1 4 true None None kwargs) in
  clashing kwargs
  ∧ (c.1 = map EWarn [split_size_warning 4] ∧
     ∃ k, k ∈ helper_parameters ∧ is_Some (kwargs !! k)
          ∧ c.2 = inl (TypeError_multiple_values k))
  ∧ (l.1 = map EWarn [split_size_warning 4] ∧
     ∃ k, k ∈ helper_parameters ∧ is_Some (kwargs !! k)
          ∧ l.2 = inl (TypeError_multiple_values k)).
Proof.
  intros kwargs c l.
  assert (clashing kwargs) as H.
  { unfold clashing, helper_parameters.
    do 3 apply Exists_cons_tl. apply Exists_cons_hd. by eexists. }
  split; [exact H|].
  exact (X6_parameter_name_among_options fresh_objects "data" 1 4 true None None
           kwargs H).
Defined.

(** X7.  An entry-point call that returns a dataset [d] had no
    [num_classes_per_task] and no parameter name among its options, and
    did, after the split-size warning if any, exactly three things: built
    the class-selection dataset of its own class with
    [num_classes_per_task=ways] on the resolved options, wrapped it into
    [d] with [ClassSplitter], and seeded [d]. *)
Theorem X7_returning_entry_point (env : oracle) (folder : string)
    (shots ways : Z) (shuffle : bool) (test_shots seed : option Z)
    (kwargs : kwargs_t) :
  let ws := if (3 <? ways)%Z then [split_size_warning ways] else [] in
  let steps klass ds d s :=
    [ECall (ClassDataset klass folder
              (<["num_classes_per_task" := VInt ways]>
                 (resolved_kwargs None (VInt ways) kwargs))) (inr ds);
     ECall (ClassSplitter ds shuffle (VInt shots)
              (VInt (default shots test_shots))) (inr d);
     ECall (SeedMethod d (of_optional seed)) (inr s)] in
  let c := run env (covertype folder shots ways shuffle test_shots seed kwargs) in
  let l := run env (letter folder shots ways shuffle test_shots seed kwargs) in
  match c.2 with
  | inr d => ¬ clashing kwargs ∧ kwargs !! "num_classes_per_task" = None
             ∧ ∃ ds s, c.1 = (map EWarn ws ++ steps Covertype ds d s)%list
  | inl _ => True
  end
  ∧ match l.2 with
    | inr d => ¬ clashing kwargs ∧ kwargs !! "num_classes_per_task" = None
               ∧ ∃ ds s, l.1 = (map EWarn ws ++ steps Letter ds d s)%list
    | inl _ => True
    end.
Proof.
  intros ws steps c l. subst c l.
  assert (∀ klass,
    let r := run env (call_helper klass folder shots ways shuffle test_shots
                        seed None kwargs) in
    match r.2 with
    | inr d => ¬ clashing kwargs ∧ kwargs !! "num_classes_per_task" = None
               ∧ ∃ ds s, r.1 = steps klass ds d s
    | inl _ => True
    end) as Hdel.
  { intros klass.
    destruct (call_helper_cases env klass folder shots ways shuffle test_shots
                seed None kwargs) as [[_ (k & _ & _ & ->)]|[N ->]]; [done|].
    helper_cases env klass folder shots ways shuffle test_shots seed
      (@None kwargs_t) kwargs; try done.
    split; [done|]. split; [done|]. by eexists _, _. }
  destruct (run_entry_point env folder shots ways shuffle test_shots seed kwargs)
    as [-> ->].
  fold ws. unfold after_warnings. simpl. split.
  - specialize (Hdel Covertype). cbv zeta in Hdel.
    destruct (run env (call_helper Covertype _ _ _ _ _ _ _ _)).2; [done|].
    destruct Hdel as (? & ? & ds & s & ->). repeat split; try done. by exists ds, s.
  - specialize (Hdel Letter). cbv zeta in Hdel.
    destruct (run env (call_helper Letter _ _ _ _ _ _ _ _)).2; [done|].
    destruct Hdel as (? & ? & ds & s & ->). repeat split; try done. by exists ds, s.
Qed.

(** X8.  With options that name neither [num_classes_per_task] nor a
    parameter of the Task Builder, an entry point fails only when a
    collaborator raises: the exception of the call is the exception of
    that collaborator, it is the only one raised, and the raising call is
    the last thing that happens.  A call that returns saw no collaborator
    raise. *)
Theorem X8_entry_point_failure_is_the_collaborators (env : oracle)
    (folder : string) (shots ways : Z) (shuffle : bool)
    (test_shots seed : option Z) (kwargs : kwargs_t) :
  ¬ clashing kwargs →
  kwargs !! "num_classes_per_task" = None →
  let c := run env (covertype folder shots ways shuffle test_shots seed kwargs) in
  let l := run env (letter folder shots ways shuffle test_shots seed kwargs) in
  match c.2 with
  | inl e => raised_by_collaborators c.1 = [e]
             ∧ ∃ failed, last c.1 = Some (ECall failed (inl e))
  | inr _ => raised_by_collaborators c.1 = []
  end
  ∧ match l.2 with
    | inl e => raised_by_collaborators l.1 = [e]
               ∧ ∃ failed, last l.1 = Some (ECall failed (inl e))
    | inr _ => raised_by_collaborators l.1 = []
    end.
Proof.
  intros Hfree Hnone c l. subst c l.
  assert (∀ klass,
    let r := run env (call_helper klass folder shots ways shuffle test_shots
                        seed None kwargs) in
    match r.2 with
    | inl e => raised_by_collaborators r.1 = [e]
               ∧ ∃ failed, last r.1 = Some (ECall failed (inl e))
    | inr _ => raised_by_collaborators r.1 = []
    end) as Hdel.
  { intros klass.
    destruct (call_helper_cases env klass folder shots ways shuffle test_shots
                seed None kwargs) as [[Hc _]|[_ ->]]; [done|].
    helper_cases env klass folder shots ways shuffle test_shots seed
      (@None kwargs_t) kwargs; try done; try (split; [done|by eexists]).
    destruct Hkey as [? Hkey]. congruence. }
  assert (∀ (ws : list warning) (x : list event * outcome),
    match x.2 with
    | inl e => raised_by_collaborators x.1 = [e]
               ∧ ∃ failed, last x.1 = Some (ECall failed (inl e))
    | inr _ => raised_by_collaborators x.1 = []
    end →
    match (after_warnings ws x).2 with
    | inl e => raised_by_collaborators (after_warnings ws x).1 = [e]
               ∧ ∃ failed, last (after_warnings ws x).1 = Some (ECall failed (inl e))
    | inr _ => raised_by_collaborators (after_warnings ws x).1 = []
    end) as Hframe.
  { intros ws [tr o]. unfold after_warnings, raised_by_collaborators. simpl.
    rewrite omap_app.
    assert (omap (λ ev, match ev with ECall _ (inl e) => Some e | _ => None end)
              (map EWarn ws) = []) as -> by (by induction ws).
    simpl. destruct o as [e|d]; [|done].
    intros [Hr [failed Hl]]. split; [done|]. exists failed.
    destruct tr as [|ev tr]; [done|]. by rewrite last_app_cons. }
  destruct (run_entry_point env folder shots ways shuffle test_shots seed kwargs)
    as [-> ->].
  split; apply Hframe, Hdel.
Qed.

Lemma X8_entry_point_failure_is_the_collaborators_witness :
  let kwargs : kwargs_t := {["transform" := VRef 10]} in
  let c := run missing_data (covertype "nowhere" 1 2 true None None kwargs) in
  let l := run missing_data (letter "nowhere" 1 2 true None None kwargs) in
  (¬ clashing kwargs ∧ kwargs !! "num_classes_per_task" = None)
  ∧ match c.2 with
    | inl e => raised_by_collaborators c.1 = [e]
               ∧ ∃ failed, last c.1 = Some (ECall failed (inl e))
    | inr _ => raised_by_collaborators c.1 = []
    end
  ∧ match l.2 with
    | inl e => raised_by_collaborators l.1 = [e]
               ∧ ∃ failed, last l.1 = Some (ECall failed (inl e))
    | inr _ => raised_by_collaborators l.1 = []
    end.
Proof.
  intros kwargs c l.
  assert (¬ clashing kwargs) as H.
  { unfold clashing, helper_parameters. rewrite Exists_exists.
    intros (k & Hin & [v Hk]).
    repeat (apply elem_of_cons in Hin as [->|Hin]; [discriminate Hk|]).
    by apply elem_of_nil in Hin. }
  split; [split; [exact H|reflexivity]|].
  exact (X8_entry_point_failure_is_the_collaborators missing_data "nowhere" 1 2
           true None None kwargs H eq_refl).
Defined.
